(** * behave_toolkit/behave_command.py: the base class of the behave commands

    A shallow embedding of [BehaveCommand] and [StreamerThread].  The
    host editor, the search path, the user and the spawned subprocess are
    gathered in a record [host] that the methods read; what the methods do
    to the outside world (status bar, dialogs, browser, output panel,
    process creation) is logged as a list of [event]s, in program order.
    A method is a computation in [M]: its outcome (a returned value or a
    raised exception) together with the events it produced. *)

From stdpp Require Import gmap strings list.
From Stdlib Require Import Ascii.

(** ** Text *)

(** The line feed, and the one-character string [\n]. *)
Definition LF : ascii := Ascii.ascii_of_nat 10.
Definition nl : string := String LF "".

Definition is_LF (c : ascii) : bool := bool_decide (c = LF).

(** ** Python truthiness, as used by [if x:], [if not x:] and the
    generator filter [if arg] *)

Class Truthy (A : Type) := truthy : A → bool.

#[global] Instance bool_truthy : Truthy bool := λ b, b.
#[global] Instance string_truthy : Truthy string :=
  λ s, match s with EmptyString => false | String _ _ => true end.
#[global] Instance list_truthy {A} : Truthy (list A) :=
  λ l, match l with [] => false | _ :: _ => true end.
(** [None] is falsy; any other object has the truthiness of its type. *)
#[global] Instance option_truthy {A} `{Truthy A} : Truthy (option A) :=
  λ o, match o with None => false | Some a => truthy a end.

(** ** Exceptions, outcomes, events *)

Inductive exn : Type :=
| Exception (args : list string)  (* raise Exception(arg, ...) *)
| AttributeError
| TypeError          (* what os.path.split raises for None; interpreters
                        before Python 3.6 raise AttributeError from inside
                        split, after the try statement's body all the same *)
| UnboundLocalError
| IndexError
| OSError.

Inductive outcome (A : Type) : Type :=
| Return (a : A)
| Raise (e : exn).
Arguments Return {A} a.
Arguments Raise {A} e.

Inductive event : Type :=
| Status (msg : string)                 (* sublime.status_message(msg) *)
| Dialog (msg : string)                 (* sublime.ok_cancel_dialog(msg) *)
| Browser (url : string)                (* webbrowser.open(url) *)
| ViewCommand (name : string)           (* self.view.run_command(name) *)
| Spawn (command : list string) (cwd : string) (startupinfo : bool)
                                        (* subprocess.Popen(command, cwd=..., startupinfo=...) *)
| PanelErase                            (* self.erase() *)
| PanelAppend (text end_ : string).     (* self.append(text, end=end_) *)

#[global] Instance exn_eq_dec : EqDecision exn.
Proof. solve_decision. Defined.
#[global] Instance outcome_eq_dec {A} `{EqDecision A} : EqDecision (outcome A).
Proof. solve_decision. Defined.
#[global] Instance event_eq_dec : EqDecision event.
Proof. solve_decision. Defined.

(** ** The monad of outcomes with an event log *)

Definition M (A : Type) : Type := outcome A * list event.

#[global] Instance M_ret : MRet M := λ A a, (Return a, []).
#[global] Instance M_bind : MBind M := λ A B f m,
  match m with
  | (Return a, t) => let '(r, t') := f a in (r, t ++ t')
  | (Raise e, t) => (Raise e, t)
  end.

Definition raise {A} (e : exn) : M A := (Raise e, []).
Definition emit (ev : event) : M unit := (Return tt, [ev]).

(** [for x in l: body(x)] *)
Fixpoint for_each {A} (l : list A) (body : A → M unit) : M unit :=
  match l with
  | [] => mret tt
  | x :: l' => body x ;; for_each l' body
  end.

(** [if b: m] *)
Definition when (b : bool) (m : M unit) : M unit :=
  if b then m else mret tt.

(** ** The host *)

Record host : Type := {
  (** [self.view.settings()] and
      [sublime.load_settings('BehaveToolkit.sublime-settings')]: the keys
      that are set, with their values. *)
  view_settings : gmap string (list string);
  plugin_settings : gmap string (list string);
  (** [shutil.which]: the path of the executable, or [None]. *)
  which : string → option string;
  (** A path that [which] returns names a file: it is not empty. *)
  which_path : ∀ cmd path, which cmd = Some path → path ≠ "";
  (** [self.view.window().folders()] *)
  folders : list string;
  (** What the call [self.view.file_name()] does: it returns a path,
      returns [None] (Sublime Text's answer for a view that has no file on
      disk), or raises. *)
  file_name : outcome (option string);
  (** The user's answer to [sublime.ok_cancel_dialog(msg)]. *)
  dialog_answer : string → bool;
  (** [sublime.platform()] *)
  platform : string;
  (** [os.path.split] of the interpreter ([posixpath.split] on Linux and
      macOS, [ntpath.split] on Windows). *)
  op_split : string → string * string;
  (** The text that the process started with this command in this
      directory writes to its standard output before it exits, as the
      text-mode pipe delivers it; [None] if the process cannot be
      started. *)
  subprocess : list string → string → option string;
}.

(** [settings.get(key, default)] *)
Definition get {V} (settings : gmap string V) (key : string)
    (dflt : option V) : option V :=
  match settings !! key with
  | Some v => Some v
  | None => dflt
  end.

(** ** Host primitives, as computations *)

Definition status_message (msg : string) : M unit := emit (Status msg).
Definition ok_cancel_dialog (h : host) (msg : string) : M bool :=
  emit (Dialog msg) ;; mret (dialog_answer h msg).
Definition wb_open (url : string) : M unit := emit (Browser url).
Definition run_command (name : string) : M unit := emit (ViewCommand name).
Definition erase : M unit := emit PanelErase.
Definition append (text end_ : string) : M unit := emit (PanelAppend text end_).

(** ** [BehaveCommand.behave_command] *)

Definition not_found_msg : string :=
  "behave could not be found. Is it installed?".

Definition behave_command (h : host) : M (list string) :=
  let settings := plugin_settings h in
  let behave :=
    get (view_settings h) "behave_command"
        (get settings "behave_command" None) in
  (* If behave is configured *)
  if truthy behave then mret (default [] behave)
  (* If not, try to find it *)
  else
    let behave := which h "behave" in
    if negb (truthy behave) then
      status_message not_found_msg ;;
      raise (Exception [not_found_msg])
    else mret [default "" behave].

(** ** [BehaveCommand._get_project_folder] *)

Definition no_project_msg : string :=
  "You either do not have a folder defined in your project, or you do "
  +:+ "not have a project open. Please open the folder that you would like to "
  +:+ "have Behave Toolkit working on. For now, we will use the folder of the "
  +:+ "current file." +:+ nl +:+ nl
  +:+ "Please hit OK to view the documentation on setting up your project.".

Definition docs_url : string :=
  "http://behavetoolkit.readthedocs.io/en/latest/gettingstarted.html".

Definition save_view_msg : string :=
  "Please save the current view before continuing.".

(** A local variable is unbound ([None]) or bound to an object; the object
    bound to [file_path] is a string or [None]. *)
Definition local (A : Type) : Type := option A.

(** [op_split(file_path)] where [file_path] is the local variable: reading
    an unbound local raises [UnboundLocalError], and [os.path.split]
    rejects [None]. *)
Definition op_split_local (h : host) (file_path : local (option string))
    : M (string * string) :=
  match file_path with
  | None => raise UnboundLocalError
  | Some None => raise TypeError
  | Some (Some p) => mret (op_split h p)
  end.

Definition _get_project_folder (h : host) : M string :=
  let proj_folders := folders h in
  (* If there's at least one entry in the list, return the last element *)
  if bool_decide (0 < length proj_folders) then
    match last proj_folders with
    | Some folder => mret folder
    | None => raise IndexError
    end
  else
    ok ← ok_cancel_dialog h no_project_msg;
    when ok (wb_open docs_url) ;;
    file_path ←
      (* try: file_path = self.view.file_name() *)
      match file_name h with
      | Return p => mret (Some p)
      (* except AttributeError: *)
      | Raise AttributeError =>
          ok_cancel_dialog h save_view_msg ;;
          run_command "prompt_save_as" ;;
          mret None
      (* any other exception stays pending while [finally] runs *)
      | Raise _ => mret None
      end;
    (* finally: the [return] (or an exception raised here) replaces
       whatever was pending *)
    '(file_folder, file_name) ← op_split_local h file_path;
    mret file_folder.

(** ** The standard-output pipe of the subprocess, in text mode *)

(** [stream.readline()]: the text up to and including the first line feed
    (all of it when there is none), and what is left in the stream. *)
Fixpoint readline (s : string) : string * string :=
  match s with
  | EmptyString => ("", "")
  | String c s' =>
      if is_LF c then (String c "", s')
      else let '(l, rest) := readline s' in (String c l, rest)
  end.

(** [for line in stream]: the lines that iterating a stream holding [s]
    yields, until [readline] finds it exhausted. *)
Fixpoint stream_lines (s : string) : list string :=
  match s with
  | EmptyString => []
  | String c s' =>
      if is_LF c then String c "" :: stream_lines s'
      else match stream_lines s' with
           | [] => [String c ""]
           | l :: ls => String c l :: ls
           end
  end.

(** [''.join(lines)] *)
Fixpoint join (lines : list string) : string :=
  match lines with
  | [] => ""
  | l :: ls => l +:+ join ls
  end.

(** The [Popen] object, as far as the class uses it: the text written by
    the process and not yet read from [process.stdout]. *)
Record Process : Type := { stdout : string }.

Definition Popen (h : host) (command : list string) (cwd : string)
    (startupinfo : bool) : M Process :=
  match subprocess h command cwd with
  | Some out =>
      emit (Spawn command cwd startupinfo) ;; mret {| stdout := out |}
  | None => raise OSError
  end.

(** [process.communicate()] with only stdout piped: reads what is left of
    stdout up to end of file; [stderr] is [None]. *)
Definition communicate (p : Process) : string * option string :=
  (stdout p, None).

(** ** [StreamerThread] *)

(** [run]: the stream is iterated to exhaustion. *)
Definition StreamerThread_run (append : string → string → M unit)
    (stream : Process) : M Process :=
  for_each (stream_lines (stdout stream)) (λ line, append line "") ;;
  mret {| stdout := "" |}.

(** ** [BehaveCommand._launch_process] *)

Definition config_error_msg : string :=
  "An error occurred while launching behave." +:+ nl.

(** [re.match(r'ConfigError', s)]: the pattern is a literal, and [match]
    anchors at the start of the string. *)
Definition re_match_ConfigError (s : string) : bool :=
  String.prefix "ConfigError" s.

(** The block under [if print_stream:].  Between [streamer.start()] and
    [streamer.join()] the caller does nothing, so the thread's [run] is
    executed in place; it leaves the stream at end of file. *)
Definition stream_to_panel (print_stream : option bool) (process : Process)
    : M Process :=
  if truthy print_stream then
    erase ;;
    StreamerThread_run append process
  else mret process.

Definition _launch_process (h : host) (command : list string)
    (print_stream : option bool) : M string :=
  (* Prevent Windows from opening a console when starting a process *)
  let startupinfo := bool_decide (platform h = "windows") in
  cwd ← _get_project_folder h;
  process ← Popen h command cwd startupinfo;
  process ← stream_to_panel print_stream process;
  let '(stdout, stderr) := communicate process in
  if re_match_ConfigError stdout then
    raise (Exception [config_error_msg; stdout])
  else mret stdout.

(** The text that [process.communicate()] hands to [_launch_process],
    for a process that wrote [out]. *)
Definition captured (print_stream : option bool) (out : string) : string :=
  match stream_to_panel print_stream {| stdout := out |} with
  | (Return process, _) => (communicate process).1
  | (Raise _, _) => ""
  end.

(** ** [BehaveCommand.behave] *)

Definition behave (h : host) (args : list string)
    (kwargs : gmap string bool) : M string :=
  cmd ← behave_command h;
  let command := cmd ++ filter (λ arg, truthy arg) args in
  _launch_process h command (kwargs !! "print_stream").

(** ** [posixpath.split], the [os.path.split] of a POSIX host *)

Module posixpath.

Definition sep : ascii := Ascii.ascii_of_nat 47.

Definition is_sep (c : ascii) : bool := bool_decide (c = sep).

(** [(p[:i], p[i:])] for [i = p.rfind(sep) + 1]: the cut is after the
    last separator, at the start when there is none. *)
Fixpoint cut_after_last_sep (p : string) : string * string :=
  match p with
  | EmptyString => ("", "")
  | String c p' =>
      let '(head, tail) := cut_after_last_sep p' in
      if truthy head then (String c head, tail)
      else if is_sep c then (String c "", tail)
      else ("", String c tail)
  end.

(** [head == sep * len(head)] *)
Fixpoint all_sep (s : string) : bool :=
  match s with
  | EmptyString => true
  | String c s' => is_sep c && all_sep s'
  end.

(** [head.rstrip(sep)] *)
Fixpoint rstrip_sep (s : string) : string :=
  match s with
  | EmptyString => ""
  | String c s' =>
      match rstrip_sep s' with
      | EmptyString => if is_sep c then "" else String c ""
      | r => String c r
      end
  end.

(** [sep not in s] *)
Fixpoint no_sep (s : string) : bool :=
  match s with
  | EmptyString => true
  | String c s' => negb (is_sep c) && no_sep s'
  end.

Definition split (p : string) : string * string :=
  let '(head, tail) := cut_after_last_sep p in
  let head :=
    if truthy head && negb (all_sep head) then rstrip_sep head else head in
  (head, tail).

End posixpath.

(** ** Notions used in the statements *)

(** The value the resolver looks at: the view's own setting when the key
    is set there, the plugin-wide setting otherwise. *)
Definition configured (h : host) : option (list string) :=
  get (view_settings h) "behave_command"
      (get (plugin_settings h) "behave_command" None).

(** The events of the fallback up to the point where the file path is
    asked for. *)
Definition confirmation (h : host) : list event :=
  Dialog no_project_msg
  :: (if dialog_answer h no_project_msg then [Browser docs_url] else []).

(** A line as a process writes it: some characters other than line feed,
    then a line feed. *)
Fixpoint complete_line (l : string) : bool :=
  match l with
  | EmptyString => false
  | String c l' =>
      if is_LF c then bool_decide (l' = "") else complete_line l'
  end.

(** The last thing written need not end in a line feed. *)
Fixpoint partial_line (l : string) : bool :=
  match l with
  | EmptyString => false
  | String c l' =>
      negb (is_LF c) && (bool_decide (l' = "") || partial_line l')
  end.

Fixpoint produced_lines (lines : list string) : bool :=
  match lines with
  | [] => true
  | [l] => complete_line l || partial_line l
  | l :: ls => complete_line l && produced_lines ls
  end.

Definition is_panel_event (ev : event) : bool :=
  match ev with
  | PanelErase | PanelAppend _ _ => true
  | _ => false
  end.

(** What a run did to the output panel, in order. *)
Definition panel_events (t : list event) : list event :=
  filter (λ ev, is_panel_event ev) t.

Definition is_Spawn (ev : event) : bool :=
  match ev with
  | Spawn _ _ _ => true
  | _ => false
  end.

(** The processes a run started, in order. *)
Definition spawn_events (t : list event) : list event :=
  filter (λ ev, is_Spawn ev) t.

(** ** Sample hosts *)

Definition scenario_output : string :=
  "Scenario: A" +:+ nl +:+ "Scenario: B" +:+ nl.

(** A POSIX host whose user confirms every dialog and on which every
    process started writes [out]. *)
Definition sample_host (view plugin : gmap string (list string))
    (found : option string) (found_path : found ≠ Some "")
    (proj_folders : list string)
    (file : outcome (option string)) (out : string) : host :=
  {| view_settings := view;
     plugin_settings := plugin;
     which := λ _, found;
     which_path := λ _ path Hfound Hempty,
       found_path (eq_trans Hfound (f_equal Some Hempty));
     folders := proj_folders;
     file_name := file;
     dialog_answer := λ _, true;
     platform := "linux";
     op_split := posixpath.split;
     subprocess := λ _ _, Some out |}.

Definition behave_on_path : option string := Some "/usr/local/bin/behave".

Definition behave_on_path_ok : behave_on_path ≠ Some "" :=
  ltac:(discriminate).

Definition nothing_on_path_ok : None ≠ Some "" :=
  ltac:(discriminate).

Definition saved_file : outcome (option string) :=
  Return (Some "/home/user/proj/feature.feature").

(** A project with three folders. *)
Definition project_host : host :=
  sample_host ∅ ∅ behave_on_path behave_on_path_ok ["/a"; "/b"; "/c"] saved_file
              scenario_output.

(** The same project, with a behave that rejects its configuration. *)
Definition config_error_host : host :=
  sample_host ∅ ∅ behave_on_path behave_on_path_ok ["/a"; "/b"; "/c"] saved_file
              "ConfigError: bad config".

(** A command configured on the view, another one plugin-wide. *)
Definition configured_host : host :=
  sample_host {[ "behave_command" := ["/usr/bin/behave"; "--no-color"] ]}
              {[ "behave_command" := ["behave"] ]}
              behave_on_path behave_on_path_ok ["/a"] saved_file
              scenario_output.

(** Nothing configured, no behave on the search path. *)
Definition bare_host : host :=
  sample_host ∅ ∅ None nothing_on_path_ok ["/a"] saved_file
              scenario_output.

(** No project folder; the active file is saved. *)
Definition file_host : host :=
  sample_host ∅ ∅ behave_on_path behave_on_path_ok [] saved_file scenario_output.

(** No project folder; the active view was never saved. *)
Definition unsaved_host : host :=
  sample_host ∅ ∅ behave_on_path behave_on_path_ok [] (Return None) scenario_output.

(** An empty list set on the view, a command set plugin-wide. *)
Definition override_host : host :=
  sample_host {[ "behave_command" := [] ]}
              {[ "behave_command" := ["behave"] ]}
              behave_on_path behave_on_path_ok ["/a"] saved_file
              scenario_output.

(** No project folder, and a view whose [file_name()] raises. *)
Definition raising_host : host :=
  sample_host ∅ ∅ behave_on_path behave_on_path_ok [] (Raise AttributeError)
              scenario_output.

(** A Windows host with a project on which no process can be started. *)
Definition no_process_host : host :=
  {| view_settings := ∅;
     plugin_settings := ∅;
     which := λ _, behave_on_path;
     which_path := λ _ path Hfound Hempty,
       behave_on_path_ok (eq_trans Hfound (f_equal Some Hempty));
     folders := ["/a"];
     file_name := saved_file;
     dialog_answer := λ _, false;
     platform := "windows";
     op_split := posixpath.split;
     subprocess := λ _ _, None |}.

(** * Properties *)

(** ** The monad *)

Lemma bind_Return {A B} (a : A) (t : list event) (f : A → M B) :
  ((Return a, t) ≫= f) = ((f a).1, t ++ (f a).2).
Proof. unfold mbind, M_bind. by destruct (f a). Qed.

Lemma bind_Raise {A B} (e : exn) (t : list event) (f : A → M B) :
  ((Raise e, t) ≫= f) = (Raise e, t).
Proof. done. Qed.

Lemma bind_trace_prefix {A B} (m : M A) (f : A → M B) :
  ∃ t', (m ≫= f).2 = m.2 ++ t'.
Proof.
  destruct m as [[a|e] t].
  - rewrite bind_Return. by eexists.
  - rewrite bind_Raise. exists []. by rewrite app_nil_r.
Qed.

Lemma for_each_append (lines : list string) :
  for_each lines (λ line, append line "")
  = (Return tt, (λ line, PanelAppend line "") <$> lines).
Proof.
  induction lines as [|l ls IH]; [done|].
  cbn [for_each]. rewrite IH. unfold append, emit.
  by rewrite bind_Return.
Qed.

(** ** Lines of a text stream *)

Lemma is_LF_true c : is_LF c = true ↔ c = LF.
Proof. unfold is_LF. by rewrite bool_decide_eq_true. Qed.

(** [readline] returns the empty string at end of file only. *)
Lemma readline_empty (s : string) : (readline s).1 = "" → s = "".
Proof.
  destruct s as [|c s]; [done|].
  cbn [readline]. destruct (is_LF c); [done|]. by destruct (readline s).
Qed.

(** Iterating the stream is calling [readline] until it returns the
    empty string. *)
Lemma stream_lines_readline (s : string) :
  stream_lines s =
    match readline s with
    | (EmptyString, _) => []
    | (line, rest) => line :: stream_lines rest
    end.
Proof.
  induction s as [|c s IH]; [done|].
  cbn [stream_lines readline]. destruct (is_LF c); [done|].
  rewrite IH. pose proof (readline_empty s) as Hs.
  destruct (readline s) as [[|c' l] rest] eqn:Hr; [|done].
  rewrite Hs in Hr by done. by injection Hr as <-.
Qed.

(** [readline] loses nothing. *)
Lemma readline_append (s : string) :
  (readline s).1 +:+ (readline s).2 = s.
Proof.
  induction s as [|c s IH]; [done|].
  cbn [readline]. destruct (is_LF c); [done|].
  destruct (readline s) as [l rest]. cbn in *. subst s. reflexivity.
Qed.

(** The lines, put together again, are the text that was in the stream. *)
Lemma join_stream_lines (s : string) : join (stream_lines s) = s.
Proof.
  induction s as [|c s IH]; [done|].
  cbn [stream_lines]. destruct (is_LF c).
  - cbn. by rewrite IH.
  - destruct (stream_lines s) as [|l ls]; cbn in *; by rewrite <- IH.
Qed.

(** No line of a stream is empty. *)
Lemma stream_lines_nonempty (s : string) :
  Forall (λ line, line ≠ "") (stream_lines s).
Proof.
  induction s as [|c s IH]; [constructor|].
  cbn [stream_lines]. destruct (is_LF c).
  - by constructor.
  - destruct (stream_lines s) as [|l ls]; [by repeat constructor|].
    inversion IH; subst. by constructor.
Qed.

Lemma append_String (c : ascii) (l s : string) :
  String c l +:+ s = String c (l +:+ s).
Proof. reflexivity. Qed.

Lemma append_empty_r (s : string) : s +:+ "" = s.
Proof. induction s as [|c s IH]; [done|]. by rewrite append_String, IH. Qed.

Lemma stream_lines_complete (l s : string) :
  complete_line l = true → stream_lines (l +:+ s) = l :: stream_lines s.
Proof.
  induction l as [|c l IH]; [done|].
  rewrite append_String. cbn [complete_line stream_lines].
  destruct (is_LF c).
  - by intros ->%bool_decide_eq_true.
  - intros H. by rewrite (IH H).
Qed.

Lemma stream_lines_partial (l : string) :
  partial_line l = true → stream_lines l = [l].
Proof.
  induction l as [|c l IH]; [done|].
  cbn [partial_line stream_lines]. destruct (is_LF c); [done|].
  intros [->%bool_decide_eq_true | H]%orb_true_iff; [done|].
  by rewrite (IH H).
Qed.

(** Iterating a stream yields the lines as they were produced. *)
Lemma stream_lines_join (lines : list string) :
  produced_lines lines = true → stream_lines (join lines) = lines.
Proof.
  induction lines as [|l ls IH]; [done|].
  destruct ls as [|l' ls].
  - cbn [produced_lines join]. rewrite append_empty_r.
    intros [H|H]%orb_true_iff.
    + rewrite <- (append_empty_r l) at 1.
      by rewrite stream_lines_complete.
    + by apply stream_lines_partial.
  - intros [H1 H2]%andb_true_iff.
    change (join (l :: l' :: ls)) with (l +:+ join (l' :: ls)).
    by rewrite stream_lines_complete, IH.
Qed.

(** ** The output panel *)

Lemma panel_events_app (t1 t2 : list event) :
  panel_events (t1 ++ t2) = panel_events t1 ++ panel_events t2.
Proof. apply filter_app. Qed.

Lemma panel_events_appends (lines : list string) :
  panel_events ((λ line, PanelAppend line "") <$> lines)
  = (λ line, PanelAppend line "") <$> lines.
Proof.
  induction lines as [|l ls IH]; [done|].
  rewrite fmap_cons. unfold panel_events in *.
  rewrite filter_cons_True by done. by rewrite IH.
Qed.

(** ** The streamer *)

Lemma StreamerThread_run_append (stream : Process) :
  StreamerThread_run append stream
  = (Return {| stdout := "" |},
     (λ line, PanelAppend line "") <$> stream_lines (stdout stream)).
Proof.
  unfold StreamerThread_run. rewrite for_each_append, bind_Return.
  cbn. by rewrite app_nil_r.
Qed.

Lemma stream_to_panel_streaming (print_stream : option bool) (p : Process) :
  truthy print_stream = true →
  stream_to_panel print_stream p
  = (Return {| stdout := "" |},
     PanelErase :: ((λ line, PanelAppend line "") <$> stream_lines (stdout p))).
Proof.
  intros H. unfold stream_to_panel. rewrite H.
  unfold erase, emit. by rewrite bind_Return, StreamerThread_run_append.
Qed.

Lemma stream_to_panel_silent (print_stream : option bool) (p : Process) :
  truthy print_stream = false →
  stream_to_panel print_stream p = (Return p, []).
Proof. intros H. unfold stream_to_panel. by rewrite H. Qed.

(** After streaming nothing is left for [communicate]; without streaming
    [communicate] gets everything. *)
Lemma captured_streaming (print_stream : option bool) (out : string) :
  truthy print_stream = true → captured print_stream out = "".
Proof.
  intros H. unfold captured. by rewrite stream_to_panel_streaming.
Qed.

Lemma captured_silent (print_stream : option bool) (out : string) :
  truthy print_stream = false → captured print_stream out = out.
Proof.
  intros H. unfold captured. by rewrite stream_to_panel_silent.
Qed.

(** ** [behave_command] *)

Lemma configured_view (h : host) (cmd : list string) :
  view_settings h !! "behave_command" = Some cmd → configured h = Some cmd.
Proof. unfold configured, get. by intros ->. Qed.

Lemma configured_plugin (h : host) :
  view_settings h !! "behave_command" = None →
  configured h = plugin_settings h !! "behave_command".
Proof.
  unfold configured, get. intros ->.
  by destruct (plugin_settings h !! "behave_command").
Qed.

Lemma truthy_list_true {A} (l : list A) : truthy l = true ↔ l ≠ [].
Proof. by destruct l. Qed.

Lemma truthy_string_true (s : string) : truthy s = true ↔ s ≠ "".
Proof. by destruct s. Qed.

Lemma behave_command_truthy (h : host) (cmd : list string) :
  configured h = Some cmd → cmd ≠ [] →
  behave_command h = (Return cmd, []).
Proof.
  intros Hc Hne. unfold behave_command. fold (configured h). rewrite Hc.
  by destruct cmd.
Qed.

Lemma behave_command_falsy (h : host) :
  truthy (configured h) = false →
  behave_command h =
    match which h "behave" with
    | Some path => (Return [path], [])
    | None => (Raise (Exception [not_found_msg]), [Status not_found_msg])
    end.
Proof.
  intros Hc. unfold behave_command. fold (configured h). rewrite Hc.
  destruct (which h "behave") as [[|c p]|] eqn:Hw; [|done..].
  by destruct (which_path h _ _ Hw).
Qed.

(** C3: when a command vector, an executable followed by arguments, is
    configured (the view's setting if the key is set there, else the
    plugin-wide one), the resolver returns that vector as it is and does
    nothing else, whatever [which] would find. *)
Theorem behave_command_configured (h : host) (exe : string)
    (arguments : list string) :
  (view_settings h !! "behave_command" = Some (exe :: arguments)
   ∨ (view_settings h !! "behave_command" = None
      ∧ plugin_settings h !! "behave_command" = Some (exe :: arguments))) →
  behave_command h = (Return (exe :: arguments), [])
  ∧ ∀ h', view_settings h' = view_settings h →
          plugin_settings h' = plugin_settings h →
          behave_command h' = behave_command h.
Proof.
  assert (∀ h0, view_settings h0 !! "behave_command" = Some (exe :: arguments)
     ∨ (view_settings h0 !! "behave_command" = None
        ∧ plugin_settings h0 !! "behave_command" = Some (exe :: arguments)) →
     behave_command h0 = (Return (exe :: arguments), [])) as Hret.
  { intros h0 Hc. apply behave_command_truthy; [|done].
    destruct Hc as [Hv | [Hv Hp]].
    - by apply configured_view.
    - by rewrite configured_plugin. }
  intros Hc. split; [by apply Hret|].
  intros h' Hv Hp. rewrite (Hret h Hc). apply Hret. by rewrite Hv, Hp.
Qed.

(** C4: with the key set neither on the view nor plugin-wide, the
    resolver raises the not-found exception after one status message (its
    only effect) when [which] finds nothing, and returns the one-element
    vector of the executable's path when [which] finds it. *)
Theorem behave_command_not_configured (h : host) :
  view_settings h !! "behave_command" = None →
  plugin_settings h !! "behave_command" = None →
  (which h "behave" = None →
   behave_command h
   = (Raise (Exception [not_found_msg]), [Status not_found_msg]))
  ∧ (∀ path, which h "behave" = Some path →
     behave_command h = (Return [path], [])).
Proof.
  intros Hv Hp.
  assert (truthy (configured h) = false) as Hc.
  { by rewrite configured_plugin, Hp. }
  rewrite (behave_command_falsy h Hc). split.
  - by intros ->.
  - by intros path ->.
Qed.

(** ** [_get_project_folder] *)

(** C5: with at least one project folder the selector returns the last
    one, shows no dialog, opens nothing, and its answer depends on
    nothing but the folder list. *)
Theorem project_folder_last (h : host) (before : list string) (folder : string) :
  folders h = before ++ [folder] →
  _get_project_folder h = (Return folder, [])
  ∧ ∀ h', folders h' = folders h →
      _get_project_folder h' = _get_project_folder h.
Proof.
  intros Hf.
  assert (∀ h', folders h' = before ++ [folder] →
                _get_project_folder h' = (Return folder, [])) as Hlast.
  { intros h' Hf'. unfold _get_project_folder. rewrite Hf', last_snoc.
    rewrite bool_decide_eq_true_2; [done|].
    rewrite length_app. cbn. lia. }
  split; [by apply Hlast|].
  intros h' Hf'. rewrite (Hlast h), (Hlast h'); congruence.
Qed.

Lemma project_folder_fallback (h : host) :
  folders h = [] →
  _get_project_folder h =
    match file_name h with
    | Return (Some p) => (Return (op_split h p).1, confirmation h)
    | Return None => (Raise TypeError, confirmation h)
    | Raise AttributeError =>
        (Raise UnboundLocalError,
         confirmation h
         ++ [Dialog save_view_msg; ViewCommand "prompt_save_as"])
    | Raise _ => (Raise UnboundLocalError, confirmation h)
    end.
Proof.
  intros Hf. unfold _get_project_folder, confirmation. rewrite Hf.
  rewrite bool_decide_eq_false_2 by (cbn; lia).
  unfold ok_cancel_dialog, when, wb_open, run_command, emit, raise.
  destruct (dialog_answer h no_project_msg);
    destruct (file_name h) as [[p|]|[]]; cbn;
    try destruct (op_split h p); done.
Qed.

(** C6: with no project folder and a saved active file, the selector
    shows the confirmation dialog, opens the documentation when the user
    confirms, and returns the directory part of the file's path. *)
Theorem project_folder_of_file (h : host) (p : string) :
  folders h = [] →
  file_name h = Return (Some p) →
  _get_project_folder h
  = (Return (op_split h p).1,
     Dialog no_project_msg
     :: (if dialog_answer h no_project_msg then [Browser docs_url] else [])).
Proof.
  intros Hf Hp. rewrite (project_folder_fallback h Hf), Hp. done.
Qed.

Lemma project_folder_no_panel (h : host) :
  panel_events (_get_project_folder h).2 = [].
Proof.
  destruct (folders h) as [|f fs] eqn:Hf.
  - rewrite (project_folder_fallback h Hf). unfold confirmation.
    destruct (dialog_answer h no_project_msg);
      by destruct (file_name h) as [[p|]|[]].
  - unfold _get_project_folder. rewrite Hf.
    rewrite bool_decide_eq_true_2 by (cbn; lia).
    by destruct (last (f :: fs)).
Qed.

Lemma project_folder_no_Exception (h : host) (args : list string) :
  (_get_project_folder h).1 ≠ Raise (Exception args).
Proof.
  destruct (folders h) as [|f fs] eqn:Hf.
  - rewrite (project_folder_fallback h Hf).
    by destruct (file_name h) as [[p|]|[]].
  - unfold _get_project_folder. rewrite Hf.
    rewrite bool_decide_eq_true_2 by (cbn; lia).
    by destruct (last (f :: fs)).
Qed.

(** ** [_launch_process] *)

(** The launcher stops where the selector or [Popen] raises. *)
Lemma launch_no_cwd (h : host) command print_stream (e : exn) t :
  _get_project_folder h = (Raise e, t) →
  _launch_process h command print_stream = (Raise e, t).
Proof. intros H. unfold _launch_process. by rewrite H. Qed.

Lemma launch_no_process (h : host) command print_stream cwd t :
  _get_project_folder h = (Return cwd, t) →
  subprocess h command cwd = None →
  _launch_process h command print_stream = (Raise OSError, t).
Proof.
  intros Hc Hs. unfold _launch_process. rewrite Hc, bind_Return.
  cbn [fst snd]. unfold Popen. rewrite Hs. cbn. by rewrite app_nil_r.
Qed.

Lemma Popen_spawned (h : host) command cwd startupinfo out :
  subprocess h command cwd = Some out →
  Popen h command cwd startupinfo
  = (Return {| stdout := out |}, [Spawn command cwd startupinfo]).
Proof. intros Hs. unfold Popen. by rewrite Hs. Qed.

(** Once the process runs: what the launcher returns or raises, and the
    events after those of the selector. *)
Lemma launch_spawned (h : host) command print_stream cwd t out :
  _get_project_folder h = (Return cwd, t) →
  subprocess h command cwd = Some out →
  _launch_process h command print_stream
  = (let stdout := captured print_stream out in
     if String.prefix "ConfigError" stdout
     then Raise (Exception [config_error_msg; stdout])
     else Return stdout,
     t ++ Spawn command cwd (bool_decide (platform h = "windows"))
       :: (stream_to_panel print_stream {| stdout := out |}).2).
Proof.
  intros Hc Hs. unfold _launch_process, captured.
  rewrite Hc, bind_Return. cbn [fst snd].
  rewrite (Popen_spawned _ _ _ _ _ Hs), bind_Return. cbn [fst snd].
  destruct (truthy print_stream) eqn:Hp.
  - rewrite stream_to_panel_streaming by done.
    rewrite bind_Return. cbn. by rewrite app_nil_r.
  - rewrite stream_to_panel_silent by done.
    rewrite bind_Return. cbn. unfold re_match_ConfigError.
    by destruct (String.prefix "ConfigError" out).
Qed.

Lemma prefix_iff (p s : string) :
  String.prefix p s = true ↔ ∃ rest, s = p +:+ rest.
Proof.
  revert s. induction p as [|c p IH]; intros s.
  - split; [|by destruct s]. intros _. by exists s.
  - destruct s as [|c' s]; cbn [String.prefix].
    + split; [done|]. by intros [rest ?].
    + destruct (Ascii.ascii_dec c c') as [->|Hne].
      * rewrite IH. split; intros [rest Hr]; exists rest.
        -- by rewrite append_String, Hr.
        -- rewrite append_String in Hr. congruence.
      * split; [done|]. intros [rest Hr].
        rewrite append_String in Hr. congruence.
Qed.

Lemma launch_silent_no_panel (h : host) command print_stream :
  truthy print_stream = false →
  panel_events (_launch_process h command print_stream).2 = [].
Proof.
  intros Hp. pose proof (project_folder_no_panel h) as Hsel.
  destruct (_get_project_folder h) as [[cwd|e] t] eqn:Hc.
  - destruct (subprocess h command cwd) as [out|] eqn:Hs.
    + rewrite (launch_spawned _ _ _ _ _ _ Hc Hs).
      rewrite stream_to_panel_silent by done. cbn [fst snd] in *.
      rewrite panel_events_app, Hsel. done.
    + by rewrite (launch_no_process _ _ _ _ _ Hc Hs).
  - by rewrite (launch_no_cwd _ _ _ _ _ Hc).
Qed.

(** C1, where the code departs from it: a process writes two lines; run
    with streaming, [_launch_process] returns the empty string, while
    without streaming it returns the two lines. *)
Theorem launch_streaming_returns_nothing :
  subprocess project_host ["behave"] "/c" = Some scenario_output
  ∧ (_launch_process project_host ["behave"] (Some true)).1 = Return ""
  ∧ (_launch_process project_host ["behave"] None).1
    = Return scenario_output
  ∧ scenario_output ≠ "".
Proof. by vm_compute. Qed.

(** C2, where the code departs from it: a process writes
    [ConfigError: bad config].  Run with streaming, [_launch_process]
    raises nothing and returns the empty string: the streamer has read
    the output, and the check sees what is left.  Run without streaming,
    it raises the exception that carries the output. *)
Theorem launch_streaming_misses_config_error :
  subprocess config_error_host ["behave"] "/c"
  = Some "ConfigError: bad config"
  ∧ String.prefix "ConfigError" "ConfigError: bad config" = true
  ∧ (_launch_process config_error_host ["behave"] (Some true)).1 = Return ""
  ∧ (_launch_process config_error_host ["behave"] None).1
    = Raise (Exception [config_error_msg; "ConfigError: bad config"]).
Proof. by vm_compute. Qed.

(** The check of the launcher, in terms of the text that [communicate]
    returns (nothing after streaming, the whole output without): the
    exception is raised exactly when that text begins with [ConfigError],
    and the text is returned otherwise. *)
Lemma launch_config_error (h : host) command print_stream cwd t out :
  _get_project_folder h = (Return cwd, t) →
  subprocess h command cwd = Some out →
  let stdout := captured print_stream out in
  ((∃ rest, stdout = "ConfigError" +:+ rest) →
   (_launch_process h command print_stream).1
   = Raise (Exception [config_error_msg; stdout]))
  ∧ ((∀ rest, stdout ≠ "ConfigError" +:+ rest) →
     (_launch_process h command print_stream).1 = Return stdout)
  ∧ (truthy print_stream = false → stdout = out).
Proof.
  intros Hc Hs stdout. rewrite (launch_spawned _ _ _ _ _ _ Hc Hs).
  cbn [fst]. fold stdout. split; [|split].
  - intros Hpre%prefix_iff. by rewrite Hpre.
  - intros Hno. destruct (String.prefix "ConfigError" stdout) eqn:Hpre; [|done].
    apply prefix_iff in Hpre as [rest Hr]. by destruct (Hno rest).
  - apply captured_silent.
Qed.

(** C7: when streaming is requested and the process writes the lines
    [lines], the panel is erased once and then receives each line once,
    in order, as it is, with an empty [end]; when streaming is not
    requested the panel is neither erased nor appended to. *)
Theorem launch_streaming_panel (h : host) command cwd t (lines : list string) :
  _get_project_folder h = (Return cwd, t) →
  produced_lines lines = true →
  subprocess h command cwd = Some (join lines) →
  (∀ print_stream, truthy print_stream = true →
     panel_events (_launch_process h command print_stream).2
     = PanelErase :: ((λ line, PanelAppend line "") <$> lines))
  ∧ (∀ h' command' print_stream, truthy print_stream = false →
     panel_events (_launch_process h' command' print_stream).2 = []).
Proof.
  intros Hc Hl Hs. split.
  - intros print_stream Hp. pose proof (project_folder_no_panel h) as Hsel.
    rewrite Hc in Hsel. cbn [snd] in Hsel.
    rewrite (launch_spawned _ _ _ _ _ _ Hc Hs).
    rewrite stream_to_panel_streaming by done. cbn [fst snd stdout].
    rewrite stream_lines_join by done.
    rewrite panel_events_app, Hsel. cbn [app].
    unfold panel_events. rewrite filter_cons_False by (cbn; tauto).
    rewrite filter_cons_True by done. f_equal.
    apply panel_events_appends.
  - intros h' command' print_stream. apply launch_silent_no_panel.
Qed.

(** ** [behave] *)

Lemma truthy_args (args : list string) :
  filter (λ arg, truthy arg) args = filter (λ arg, arg ≠ "") args.
Proof.
  apply list_filter_iff. intros arg.
  rewrite <- truthy_string_true. by destruct (truthy arg).
Qed.

Lemma behave_command_Return (h : host) (cmd : list string) t :
  behave_command h = (Return cmd, t) → t = [].
Proof.
  unfold behave_command, status_message, emit, raise.
  destruct (truthy _); [by intros [= _ <-]|].
  destruct (negb _); [done | by intros [= _ <-]].
Qed.

Lemma project_folder_no_spawn (h : host) :
  spawn_events (_get_project_folder h).2 = [].
Proof.
  destruct (folders h) as [|f fs] eqn:Hf.
  - rewrite (project_folder_fallback h Hf). unfold confirmation.
    destruct (dialog_answer h no_project_msg);
      by destruct (file_name h) as [[p|]|[]].
  - unfold _get_project_folder. rewrite Hf.
    rewrite bool_decide_eq_true_2 by (cbn; lia).
    by destruct (last (f :: fs)).
Qed.

Lemma stream_to_panel_no_spawn (print_stream : option bool) (p : Process) :
  spawn_events (stream_to_panel print_stream p).2 = [].
Proof.
  destruct (truthy print_stream) eqn:Hp.
  - rewrite stream_to_panel_streaming by done. cbn [snd].
    unfold spawn_events. rewrite filter_cons_False by (cbn; tauto).
    induction (stream_lines (stdout p)) as [|l ls IH]; [done|].
    rewrite fmap_cons, filter_cons_False by (cbn; tauto). done.
  - by rewrite stream_to_panel_silent.
Qed.

(** C8: the command that [behave] hands to the launcher is the resolved
    vector followed by the non-empty arguments, in their order; it is the
    command of the one process that gets started. *)
Theorem behave_command_vector (h : host) (args : list string)
    (kwargs : gmap string bool) (cmd : list string) t0 :
  behave_command h = (Return cmd, t0) →
  let command := cmd ++ filter (λ arg, arg ≠ "") args in
  let launched := _launch_process h command (kwargs !! "print_stream") in
  behave h args kwargs = (launched.1, t0 ++ launched.2)
  ∧ ∀ cwd t out,
      _get_project_folder h = (Return cwd, t) →
      subprocess h command cwd = Some out →
      spawn_events (behave h args kwargs).2
      = [Spawn command cwd (bool_decide (platform h = "windows"))].
Proof.
  intros Hcmd command launched.
  assert (behave h args kwargs = (launched.1, t0 ++ launched.2)) as Hb.
  { unfold behave. rewrite Hcmd, bind_Return, truthy_args. done. }
  split; [done|]. intros cwd t out Hc Hs. rewrite Hb. cbn [snd].
  rewrite (behave_command_Return _ _ _ Hcmd). cbn [app].
  unfold launched. rewrite (launch_spawned _ _ _ _ _ _ Hc Hs). cbn [snd].
  pose proof (project_folder_no_spawn h) as Hsel. rewrite Hc in Hsel.
  cbn [snd] in Hsel. unfold spawn_events in *.
  rewrite filter_app, Hsel. cbn [app].
  rewrite filter_cons_True by done.
  by rewrite (stream_to_panel_no_spawn _ _).
Qed.

(** C9, where the code departs from it: for a view that was never saved
    [file_name()] returns [None] and raises nothing, so the handler that
    asks the user to save is not run; the selector shows the confirmation
    only and fails when it splits the path. *)
Theorem project_folder_unsaved (h : host) :
  folders h = [] →
  file_name h = Return None →
  (_get_project_folder h).1 = Raise TypeError
  ∧ (Dialog save_view_msg ∉ (_get_project_folder h).2)
  ∧ (ViewCommand "prompt_save_as" ∉ (_get_project_folder h).2).
Proof.
  intros Hf Hn. rewrite (project_folder_fallback h Hf), Hn.
  unfold confirmation. cbn [fst snd].
  split; [done|].
  destruct (dialog_answer h no_project_msg);
    rewrite !not_elem_of_cons; repeat split;
    try discriminate; try apply not_elem_of_nil.
  all: by vm_compute.
Qed.

(** Were [file_name()] to raise [AttributeError], the user would be asked
    to save, and the selector would still fail: [file_path] is unbound
    when [finally] splits it. *)
Lemma project_folder_AttributeError (h : host) :
  folders h = [] →
  file_name h = Raise AttributeError →
  _get_project_folder h
  = (Raise UnboundLocalError,
     confirmation h ++ [Dialog save_view_msg; ViewCommand "prompt_save_as"]).
Proof. intros Hf Hn. by rewrite (project_folder_fallback h Hf), Hn. Qed.

(** C10: when streaming is requested [_launch_process] never raises the
    configuration exception (nor any [Exception]): the streamer has read
    the stream to its end, [communicate] returns the empty string, and
    that is what the launcher checks and returns, whatever the process
    wrote. *)
Theorem launch_streaming_no_config_error (h : host) command print_stream :
  truthy print_stream = true →
  (∀ args, (_launch_process h command print_stream).1 ≠ Raise (Exception args))
  ∧ (∀ cwd t out,
       _get_project_folder h = (Return cwd, t) →
       subprocess h command cwd = Some out →
       captured print_stream out = ""
       ∧ (_launch_process h command print_stream).1 = Return "").
Proof.
  intros Hp.
  assert (∀ cwd t out,
       _get_project_folder h = (Return cwd, t) →
       subprocess h command cwd = Some out →
       captured print_stream out = ""
       ∧ (_launch_process h command print_stream).1 = Return "") as Hrun.
  { intros cwd t out Hc Hs. split; [by apply captured_streaming|].
    rewrite (launch_spawned _ _ _ _ _ _ Hc Hs). cbn [fst].
    by rewrite captured_streaming. }
  split; [|done]. intros args.
  pose proof (project_folder_no_Exception h args) as Hsel.
  destruct (_get_project_folder h) as [[cwd|e] t] eqn:Hc.
  - destruct (subprocess h command cwd) as [out|] eqn:Hs.
    + by rewrite (proj2 (Hrun _ _ _ eq_refl Hs)).
    + by rewrite (launch_no_process _ _ _ _ _ Hc Hs).
  - by rewrite (launch_no_cwd _ _ _ _ _ Hc).
Qed.

(** ** [posixpath.split] *)

Lemma is_sep_true (c : ascii) : posixpath.is_sep c = true ↔ c = posixpath.sep.
Proof. unfold posixpath.is_sep. by rewrite bool_decide_eq_true. Qed.

Lemma cut_no_sep (name : string) :
  posixpath.no_sep name = true →
  posixpath.cut_after_last_sep name = ("", name).
Proof.
  induction name as [|c name IH]; [done|].
  cbn [posixpath.no_sep posixpath.cut_after_last_sep].
  intros [Hc Hn]%andb_true_iff. rewrite (IH Hn). cbn.
  by destruct (posixpath.is_sep c).
Qed.

Lemma cut_dir_name (dir name : string) :
  posixpath.no_sep name = true →
  posixpath.cut_after_last_sep (dir +:+ String posixpath.sep name)
  = (dir +:+ String posixpath.sep "", name).
Proof.
  intros Hn. induction dir as [|c dir IH].
  - change ("" +:+ String posixpath.sep name) with (String posixpath.sep name).
    cbn [posixpath.cut_after_last_sep]. rewrite (cut_no_sep _ Hn). cbn.
    by rewrite (proj2 (is_sep_true _) eq_refl).
  - rewrite !append_String. cbn [posixpath.cut_after_last_sep].
    rewrite IH. by destruct dir.
Qed.

Lemma all_sep_rstrip (s : string) :
  posixpath.all_sep s = true → posixpath.rstrip_sep s = "".
Proof.
  induction s as [|c s IH]; [done|].
  cbn [posixpath.all_sep posixpath.rstrip_sep].
  intros [Hc Hs]%andb_true_iff. by rewrite (IH Hs), Hc.
Qed.

Lemma all_sep_snoc (s : string) :
  posixpath.all_sep (s +:+ String posixpath.sep "") = posixpath.all_sep s.
Proof.
  induction s as [|c s IH]; [done|].
  rewrite append_String. cbn [posixpath.all_sep]. by rewrite IH.
Qed.

Lemma rstrip_sep_snoc (s : string) :
  posixpath.rstrip_sep (s +:+ String posixpath.sep "") = posixpath.rstrip_sep s.
Proof.
  induction s as [|c s IH]; [done|].
  rewrite append_String. cbn [posixpath.rstrip_sep]. by rewrite IH.
Qed.

(** A path made of a directory that does not end in a separator, a
    separator and a file name splits into the directory and the name. *)
Lemma split_dir_name (dir name : string) :
  dir ≠ "" →
  posixpath.rstrip_sep dir = dir →
  posixpath.no_sep name = true →
  posixpath.split (dir +:+ String posixpath.sep name) = (dir, name).
Proof.
  intros Hne Hdir Hn. unfold posixpath.split.
  rewrite (cut_dir_name _ _ Hn), all_sep_snoc.
  assert (posixpath.all_sep dir = false) as ->.
  { destruct (posixpath.all_sep dir) eqn:Ha; [|done].
    apply all_sep_rstrip in Ha. congruence. }
  assert (truthy (dir +:+ String posixpath.sep "") = true) as ->.
  { by destruct dir. }
  cbn [andb negb]. by rewrite rstrip_sep_snoc, Hdir.
Qed.

(** The active file of the sample hosts lies in [/home/user/proj]. *)
Example split_feature_file :
  posixpath.split "/home/user/proj/feature.feature"
  = ("/home/user/proj", "feature.feature").
Proof. by apply (split_dir_name "/home/user/proj" "feature.feature"). Qed.

(** ** The theorems at the sample hosts *)

Lemma behave_command_configured_witness :
  (view_settings configured_host !! "behave_command"
   = Some ["/usr/bin/behave"; "--no-color"]
   ∨ (view_settings configured_host !! "behave_command" = None
      ∧ plugin_settings configured_host !! "behave_command"
        = Some ["/usr/bin/behave"; "--no-color"]))
  ∧ behave_command configured_host
    = (Return ["/usr/bin/behave"; "--no-color"], []).
Proof.
  assert (view_settings configured_host !! "behave_command"
          = Some ["/usr/bin/behave"; "--no-color"]) as Hv
    by (vm_compute; reflexivity).
  split; [by left|].
  exact (proj1 (behave_command_configured configured_host
                  "/usr/bin/behave" ["--no-color"] (or_introl Hv))).
Defined.

Lemma behave_command_not_configured_witness :
  view_settings bare_host !! "behave_command" = None
  ∧ plugin_settings bare_host !! "behave_command" = None
  ∧ which bare_host "behave" = None
  ∧ behave_command bare_host
    = (Raise (Exception [not_found_msg]), [Status not_found_msg]).
Proof.
  assert (view_settings bare_host !! "behave_command" = None) as Hv
    by (vm_compute; reflexivity).
  assert (plugin_settings bare_host !! "behave_command" = None) as Hp
    by (vm_compute; reflexivity).
  split; [exact Hv|]. split; [exact Hp|]. split; [reflexivity|].
  exact (proj1 (behave_command_not_configured bare_host Hv Hp) eq_refl).
Defined.

Lemma project_folder_last_witness :
  folders project_host = ["/a"; "/b"] ++ ["/c"]
  ∧ _get_project_folder project_host = (Return "/c", []).
Proof.
  split; [reflexivity|].
  exact (proj1 (project_folder_last project_host ["/a"; "/b"] "/c" eq_refl)).
Defined.

Lemma project_folder_of_file_witness :
  folders file_host = []
  ∧ file_name file_host = Return (Some "/home/user/proj/feature.feature")
  ∧ _get_project_folder file_host
    = (Return "/home/user/proj", [Dialog no_project_msg; Browser docs_url]).
Proof.
  split; [reflexivity|]. split; [reflexivity|].
  exact (project_folder_of_file file_host
           "/home/user/proj/feature.feature" eq_refl eq_refl).
Defined.

Lemma launch_config_error_witness :
  _get_project_folder config_error_host = (Return "/c", [])
  ∧ subprocess config_error_host ["behave"] "/c"
    = Some "ConfigError: bad config"
  ∧ (_launch_process config_error_host ["behave"] None).1
    = Raise (Exception [config_error_msg; "ConfigError: bad config"]).
Proof.
  split; [reflexivity|]. split; [reflexivity|].
  apply (proj1 (launch_config_error config_error_host ["behave"] None
                  "/c" [] "ConfigError: bad config" eq_refl eq_refl)).
  exists ": bad config". reflexivity.
Defined.

Lemma launch_streaming_panel_witness :
  _get_project_folder project_host = (Return "/c", [])
  ∧ produced_lines ["Scenario: A" +:+ nl; "Scenario: B" +:+ nl] = true
  ∧ subprocess project_host ["behave"] "/c"
    = Some (join ["Scenario: A" +:+ nl; "Scenario: B" +:+ nl])
  ∧ panel_events (_launch_process project_host ["behave"] (Some true)).2
    = [PanelErase; PanelAppend ("Scenario: A" +:+ nl) "";
       PanelAppend ("Scenario: B" +:+ nl) ""].
Proof.
  split; [reflexivity|]. split; [reflexivity|]. split; [reflexivity|].
  exact (proj1 (launch_streaming_panel project_host ["behave"] "/c" []
                  ["Scenario: A" +:+ nl; "Scenario: B" +:+ nl]
                  eq_refl eq_refl eq_refl) (Some true) eq_refl).
Defined.

Lemma behave_command_vector_witness :
  behave_command project_host = (Return ["/usr/local/bin/behave"], [])
  ∧ spawn_events
      (behave project_host ["--tags"; ""; "@wip"] {[ "print_stream" := true ]}).2
    = [Spawn ["/usr/local/bin/behave"; "--tags"; "@wip"] "/c" false].
Proof.
  split; [reflexivity|].
  exact (proj2 (behave_command_vector project_host ["--tags"; ""; "@wip"]
                  {[ "print_stream" := true ]} ["/usr/local/bin/behave"] []
                  eq_refl)
               "/c" [] scenario_output eq_refl eq_refl).
Defined.

Lemma project_folder_unsaved_witness :
  folders unsaved_host = []
  ∧ file_name unsaved_host = Return None
  ∧ (_get_project_folder unsaved_host).1 = Raise TypeError.
Proof.
  split; [reflexivity|]. split; [reflexivity|].
  exact (proj1 (project_folder_unsaved unsaved_host eq_refl eq_refl)).
Defined.

Lemma launch_streaming_no_config_error_witness :
  truthy (Some true) = true
  ∧ subprocess config_error_host ["behave"] "/c"
    = Some "ConfigError: bad config"
  ∧ (_launch_process config_error_host ["behave"] (Some true)).1 = Return "".
Proof.
  split; [reflexivity|]. split; [reflexivity|].
  exact (proj2 (proj2 (launch_streaming_no_config_error config_error_host
                         ["behave"] (Some true) eq_refl)
                      "/c" [] "ConfigError: bad config" eq_refl eq_refl)).
Defined.

(** * Further properties of the methods *)

(** ** [behave_command] *)

Lemma behave_command_cases (h : host) :
  (∃ exe arguments, behave_command h = (Return (exe :: arguments), []))
  ∨ behave_command h
    = (Raise (Exception [not_found_msg]), [Status not_found_msg]).
Proof.
  destruct (truthy (configured h)) eqn:Hc.
  - destruct (configured h) as [[|exe arguments]|] eqn:Hcmd; try done.
    left. exists exe, arguments. by apply behave_command_truthy.
  - rewrite (behave_command_falsy h Hc).
    destruct (which h "behave") as [path|]; [left|by right].
    by exists path, [].
Qed.

Lemma behave_command_no_panel (h : host) :
  panel_events (behave_command h).2 = [].
Proof.
  by destruct (behave_command_cases h) as [(exe & arguments & ->) | ->].
Qed.

(** X1: an empty list set on the view hides the plugin-wide setting: the
    resolver does not fall back to it, it goes to the search path. *)
Theorem behave_command_empty_override (h : host) :
  view_settings h !! "behave_command" = Some [] →
  behave_command h =
    match which h "behave" with
    | Some path => (Return [path], [])
    | None => (Raise (Exception [not_found_msg]), [Status not_found_msg])
    end.
Proof.
  intros Hv. apply behave_command_falsy.
  by rewrite (configured_view h [] Hv).
Qed.

(** X2: the resolver has two outcomes only: it returns a vector that has
    an executable in it, with no effect at all, or it raises the not-found
    exception after one status message. *)
Theorem behave_command_outcomes (h : host) :
  (∃ exe arguments, behave_command h = (Return (exe :: arguments), []))
  ∨ behave_command h
    = (Raise (Exception [not_found_msg]), [Status not_found_msg]).
Proof. apply behave_command_cases. Qed.

(** ** [_get_project_folder] *)

Lemma project_folder_project (h : host) :
  folders h ≠ [] →
  ∃ folder, last (folders h) = Some folder
            ∧ _get_project_folder h = (Return folder, []).
Proof.
  intros Hne. destruct (proj2 (last_is_Some (folders h)) Hne) as [folder Hl].
  exists folder. split; [done|].
  unfold _get_project_folder. rewrite Hl.
  rewrite bool_decide_eq_true_2; [done|].
  destruct (folders h); [done | cbn; lia].
Qed.

(** X3: whenever [file_name()] raises, the selector raises
    [UnboundLocalError] in its place: the exception of [file_name()] never
    reaches the caller.  The user is asked to save exactly when that
    exception was [AttributeError]. *)
Theorem project_folder_file_name_raises (h : host) (e : exn) :
  folders h = [] →
  file_name h = Raise e →
  (_get_project_folder h).1 = Raise UnboundLocalError
  ∧ (ViewCommand "prompt_save_as" ∈ (_get_project_folder h).2
     ↔ e = AttributeError).
Proof.
  intros Hf He. rewrite (project_folder_fallback h Hf), He.
  unfold confirmation.
  destruct (dialog_answer h no_project_msg); destruct e; cbn [fst snd app];
    (split; [done|]);
    rewrite ?elem_of_cons, ?elem_of_nil; intuition (discriminate || auto).
Qed.

(** X4: the selector returns a directory exactly when the project has a
    folder or the active view has a file; in every other state it
    raises. *)
Theorem project_folder_returns_iff (h : host) :
  (∃ folder, (_get_project_folder h).1 = Return folder)
  ↔ folders h ≠ [] ∨ ∃ p, file_name h = Return (Some p).
Proof.
  destruct (folders h) as [|f fs] eqn:Hf.
  - rewrite (project_folder_fallback h Hf).
    destruct (file_name h) as [[p|]|[]];
      cbn [fst]; (split; [intros [? ?] | intros [? | [? ?]]]);
      simplify_eq; eauto.
  - destruct (project_folder_project h) as (folder & _ & ->);
      [by rewrite Hf|].
    split; [by left | by exists folder].
Qed.

(** X5: the documentation page is opened in one situation only: the
    project has no folder and the user confirmed the dialog. *)
Theorem project_folder_opens_docs_iff (h : host) :
  Browser docs_url ∈ (_get_project_folder h).2
  ↔ folders h = [] ∧ dialog_answer h no_project_msg = true.
Proof.
  destruct (folders h) as [|f fs] eqn:Hf.
  - rewrite (project_folder_fallback h Hf). unfold confirmation.
    destruct (dialog_answer h no_project_msg);
      destruct (file_name h) as [[p|]|[]]; cbn [snd app];
      rewrite ?elem_of_cons, ?elem_of_nil; intuition (discriminate || auto).
  - destruct (project_folder_project h) as (folder & _ & ->);
      [by rewrite Hf|].
    cbn [snd]. rewrite elem_of_nil. intuition discriminate.
Qed.

(** ** [_launch_process] *)

Lemma no_spawn_not_elem (t : list event) command cwd startupinfo :
  spawn_events t = [] → Spawn command cwd startupinfo ∉ t.
Proof.
  intros Ht Hin.
  assert (Spawn command cwd startupinfo ∈ spawn_events t) as Hs.
  { unfold spawn_events. by rewrite list_elem_of_filter. }
  rewrite Ht in Hs. by apply elem_of_nil in Hs.
Qed.

(** X6: when no process gets started (the selector raises, or [Popen]
    does), the output panel is left as it was, also when streaming was
    requested. *)
Theorem launch_no_spawn_no_panel (h : host) command print_stream :
  spawn_events (_launch_process h command print_stream).2 = [] →
  panel_events (_launch_process h command print_stream).2 = [].
Proof.
  pose proof (project_folder_no_panel h) as Hsel.
  destruct (_get_project_folder h) as [[cwd|e] t] eqn:Hc.
  - destruct (subprocess h command cwd) as [out|] eqn:Hs.
    + rewrite (launch_spawned _ _ _ _ _ _ Hc Hs). cbn [snd].
      unfold spawn_events. rewrite filter_app, filter_cons_True by done.
      intros Hnil. by destruct (app_eq_nil _ _ Hnil).
    + by rewrite (launch_no_process _ _ _ _ _ Hc Hs).
  - by rewrite (launch_no_cwd _ _ _ _ _ Hc).
Qed.

Lemma produced_lines_cons (l : string) (ls : list string) :
  complete_line l = true → produced_lines ls = true →
  produced_lines (l :: ls) = true.
Proof.
  intros Hl Hls. destruct ls as [|l' ls].
  - cbn [produced_lines]. by rewrite Hl.
  - change (complete_line l && produced_lines (l' :: ls) = true).
    by rewrite Hl, Hls.
Qed.

(** The lines of a stream are lines: each ends in its one line feed,
    except that the last may have none. *)
Lemma produced_stream_lines (s : string) :
  produced_lines (stream_lines s) = true.
Proof.
  induction s as [|c s IH]; [done|].
  cbn [stream_lines]. destruct (is_LF c) eqn:Hc.
  - apply produced_lines_cons; [|done].
    cbn [complete_line]. by rewrite Hc.
  - destruct (stream_lines s) as [|l [|l' ls]].
    + cbn. by rewrite Hc.
    + cbn [produced_lines complete_line partial_line] in *. rewrite Hc.
      cbn [negb andb].
      destruct (complete_line l); [done|]. cbn [orb] in *.
      rewrite IH. apply orb_true_r.
    + cbn [produced_lines complete_line] in *. by rewrite Hc.
Qed.

(** X7: with streaming, the events after those of the selector are: the
    process is started, then the panel is erased, then one [append] with
    an empty [end] per line.  Whatever the process wrote (ending in a
    line feed or not), these lines are single lines and put together they
    are its whole output. *)
Theorem launch_streaming_trace (h : host) command print_stream cwd t out :
  _get_project_folder h = (Return cwd, t) →
  subprocess h command cwd = Some out →
  truthy print_stream = true →
  ∃ lines,
    (_launch_process h command print_stream).2
    = t ++ Spawn command cwd (bool_decide (platform h = "windows"))
        :: PanelErase :: ((λ line, PanelAppend line "") <$> lines)
    ∧ join lines = out
    ∧ produced_lines lines = true.
Proof.
  intros Hc Hs Hp. exists (stream_lines out).
  rewrite (launch_spawned _ _ _ _ _ _ Hc Hs).
  rewrite stream_to_panel_streaming by done. cbn [snd stdout].
  split; [done|]. split.
  - apply join_stream_lines.
  - apply produced_stream_lines.
Qed.

(** X8: a process that [_launch_process] starts runs the command it was
    given, in the directory that the selector returned, and with the
    console window suppressed exactly on Windows. *)
Theorem launch_spawn_event (h : host) command print_stream c d b :
  Spawn c d b ∈ (_launch_process h command print_stream).2 →
  c = command
  ∧ (_get_project_folder h).1 = Return d
  ∧ (b = true ↔ platform h = "windows").
Proof.
  pose proof (project_folder_no_spawn h) as Hsel.
  destruct (_get_project_folder h) as [[cwd|e] t] eqn:Hc; cbn [fst snd] in *.
  - destruct (subprocess h command cwd) as [out|] eqn:Hs.
    + rewrite (launch_spawned _ _ _ _ _ _ Hc Hs). cbn [snd].
      rewrite elem_of_app, elem_of_cons.
      intros [Hin | [Heq | Hin]].
      * by destruct (no_spawn_not_elem _ _ _ _ Hsel Hin).
      * injection Heq as -> -> ->. by rewrite bool_decide_eq_true.
      * by destruct (no_spawn_not_elem _ _ _ _
                       (stream_to_panel_no_spawn _ _) Hin).
    + rewrite (launch_no_process _ _ _ _ _ Hc Hs). cbn [snd]. intros Hin.
      by destruct (no_spawn_not_elem _ _ _ _ Hsel Hin).
  - rewrite (launch_no_cwd _ _ _ _ _ Hc). cbn [snd]. intros Hin.
    by destruct (no_spawn_not_elem _ _ _ _ Hsel Hin).
Qed.

(** X9: [_launch_process] raises an [Exception] in one situation only:
    the process ran, streaming was not requested, and the output begins
    with [ConfigError]; the exception then carries the message and the
    whole output. *)
Theorem launch_Exception_iff (h : host) command print_stream args :
  (_launch_process h command print_stream).1 = Raise (Exception args)
  ↔ ∃ cwd t out,
      _get_project_folder h = (Return cwd, t)
      ∧ subprocess h command cwd = Some out
      ∧ truthy print_stream = false
      ∧ (∃ rest, out = "ConfigError" +:+ rest)
      ∧ args = [config_error_msg; out].
Proof.
  split.
  - pose proof (project_folder_no_Exception h args) as Hsel.
    destruct (_get_project_folder h) as [[cwd|e] t] eqn:Hc; cbn [fst] in *.
    + destruct (subprocess h command cwd) as [out|] eqn:Hs.
      * rewrite (launch_spawned _ _ _ _ _ _ Hc Hs). cbn [fst].
        destruct (truthy print_stream) eqn:Hp.
        { by rewrite captured_streaming. }
        rewrite captured_silent by done.
        destruct (String.prefix "ConfigError" out) eqn:Hpre; [|done].
        intros [= <-]. exists cwd, t, out.
        by rewrite <- prefix_iff.
      * by rewrite (launch_no_process _ _ _ _ _ Hc Hs).
    + by rewrite (launch_no_cwd _ _ _ _ _ Hc).
  - intros (cwd & t & out & Hc & Hs & Hp & Hpre & ->).
    rewrite (launch_spawned _ _ _ _ _ _ Hc Hs). cbn [fst].
    rewrite captured_silent by done.
    apply prefix_iff in Hpre. by rewrite Hpre.
Qed.

(** ** [behave] *)

Lemma filter_truthy_nonempty (args : list string) :
  filter (λ arg, truthy arg) (filter (λ arg, arg ≠ "") args)
  = filter (λ arg, truthy arg) args.
Proof.
  rewrite !truthy_args.
  induction args as [|arg args IH]; [done|].
  destruct (decide (arg ≠ "")) as [Hne|He].
  - rewrite (filter_cons_True _ arg args Hne).
    rewrite (filter_cons_True _ arg _ Hne). by rewrite IH.
  - by rewrite (filter_cons_False _ arg args He).
Qed.

(** X10: when nothing is configured and [which] finds nothing, [behave]
    stops at the resolver: one status message, no dialog, no process. *)
Theorem behave_not_found (h : host) (args : list string)
    (kwargs : gmap string bool) :
  truthy (configured h) = false →
  which h "behave" = None →
  behave h args kwargs
  = (Raise (Exception [not_found_msg]), [Status not_found_msg]).
Proof.
  intros Hc Hw. unfold behave.
  by rewrite (behave_command_falsy h Hc), Hw.
Qed.

(** X11: unless [print_stream=True] is passed, [behave] leaves the output
    panel alone: leaving the keyword out is the same as passing
    [False]. *)
Theorem behave_silent_by_default (h : host) (args : list string)
    (kwargs : gmap string bool) :
  kwargs !! "print_stream" ≠ Some true →
  panel_events (behave h args kwargs).2 = [].
Proof.
  intros Hk.
  assert (truthy (kwargs !! "print_stream") = false) as Hp.
  { by destruct (kwargs !! "print_stream") as [[]|]. }
  pose proof (behave_command_no_panel h) as Hcmd. unfold behave.
  destruct (behave_command h) as [[cmd|e] t0]; cbn [snd] in Hcmd; [|done].
  rewrite bind_Return. cbn [snd].
  by rewrite panel_events_app, Hcmd, launch_silent_no_panel.
Qed.

(** X12: empty arguments do not count: [behave] called with them does
    what it does when called without them. *)
Theorem behave_drops_empty_args (h : host) (args : list string)
    (kwargs : gmap string bool) :
  behave h args kwargs = behave h (filter (λ arg, arg ≠ "") args) kwargs.
Proof. unfold behave. by rewrite filter_truthy_nonempty. Qed.

(** X13: the plain call.  With a resolved command, a working directory, a
    process that runs, no streaming, and an output that does not begin
    with [ConfigError], [behave] returns the whole output; its events are
    those of the selector and the start of the process. *)
Theorem behave_returns_output (h : host) (args : list string)
    (kwargs : gmap string bool) (cmd : list string) t0 cwd t out :
  behave_command h = (Return cmd, t0) →
  _get_project_folder h = (Return cwd, t) →
  subprocess h (cmd ++ filter (λ arg, arg ≠ "") args) cwd = Some out →
  kwargs !! "print_stream" ≠ Some true →
  (∀ rest, out ≠ "ConfigError" +:+ rest) →
  behave h args kwargs
  = (Return out,
     t ++ [Spawn (cmd ++ filter (λ arg, arg ≠ "") args) cwd
                 (bool_decide (platform h = "windows"))]).
Proof.
  intros Hcmd Hc Hs Hk Hno.
  assert (truthy (kwargs !! "print_stream") = false) as Hp.
  { by destruct (kwargs !! "print_stream") as [[]|]. }
  unfold behave. rewrite Hcmd, bind_Return, truthy_args.
  rewrite (behave_command_Return _ _ _ Hcmd).
  rewrite (launch_spawned _ _ _ _ _ _ Hc Hs). cbn [fst snd app].
  rewrite captured_silent, stream_to_panel_silent by done. cbn [snd].
  destruct (String.prefix "ConfigError" out) eqn:Hpre; [|done].
  apply prefix_iff in Hpre as [rest Hr]. by destruct (Hno rest).
Qed.

(** ** The further properties at the sample hosts *)

Lemma behave_command_empty_override_witness :
  view_settings override_host !! "behave_command" = Some []
  ∧ plugin_settings override_host !! "behave_command" = Some ["behave"]
  ∧ behave_command override_host = (Return ["/usr/local/bin/behave"], []).
Proof.
  assert (view_settings override_host !! "behave_command" = Some []) as Hv
    by (vm_compute; reflexivity).
  split; [exact Hv|]. split; [vm_compute; reflexivity|].
  exact (behave_command_empty_override override_host Hv).
Defined.

Lemma project_folder_file_name_raises_witness :
  folders raising_host = []
  ∧ file_name raising_host = Raise AttributeError
  ∧ (_get_project_folder raising_host).1 = Raise UnboundLocalError.
Proof.
  split; [reflexivity|]. split; [reflexivity|].
  exact (proj1 (project_folder_file_name_raises raising_host AttributeError
                  eq_refl eq_refl)).
Defined.

Lemma launch_no_spawn_no_panel_witness :
  spawn_events (_launch_process no_process_host ["behave"] (Some true)).2 = []
  ∧ panel_events (_launch_process no_process_host ["behave"] (Some true)).2
    = [].
Proof.
  assert (spawn_events
            (_launch_process no_process_host ["behave"] (Some true)).2 = [])
    as Hs by reflexivity.
  split; [exact Hs|].
  exact (launch_no_spawn_no_panel no_process_host ["behave"] (Some true) Hs).
Defined.

Lemma launch_streaming_trace_witness :
  _get_project_folder project_host = (Return "/c", [])
  ∧ subprocess project_host ["behave"] "/c" = Some scenario_output
  ∧ truthy (Some true) = true
  ∧ ∃ lines,
      (_launch_process project_host ["behave"] (Some true)).2
      = [] ++ Spawn ["behave"] "/c" (bool_decide (platform project_host = "windows"))
           :: PanelErase :: ((λ line, PanelAppend line "") <$> lines)
      ∧ join lines = scenario_output
      ∧ produced_lines lines = true.
Proof.
  split; [reflexivity|]. split; [reflexivity|]. split; [reflexivity|].
  exact (launch_streaming_trace project_host ["behave"] (Some true) "/c" []
           scenario_output eq_refl eq_refl eq_refl).
Defined.

Lemma launch_spawn_event_witness :
  Spawn ["behave"] "/c" false
    ∈ (_launch_process project_host ["behave"] None).2
  ∧ (false = true ↔ platform project_host = "windows").
Proof.
  assert (Spawn ["behave"] "/c" false
            ∈ (_launch_process project_host ["behave"] None).2) as Hin.
  { vm_compute. apply list_elem_of_here. }
  split; [exact Hin|].
  exact (proj2 (proj2 (launch_spawn_event project_host ["behave"] None
                         ["behave"] "/c" false Hin))).
Defined.

Lemma behave_not_found_witness :
  truthy (configured bare_host) = false
  ∧ which bare_host "behave" = None
  ∧ behave bare_host ["--dry-run"] ∅
    = (Raise (Exception [not_found_msg]), [Status not_found_msg]).
Proof.
  assert (truthy (configured bare_host) = false) as Hc
    by (vm_compute; reflexivity).
  split; [exact Hc|]. split; [reflexivity|].
  exact (behave_not_found bare_host ["--dry-run"] ∅ Hc eq_refl).
Defined.

Lemma behave_silent_by_default_witness :
  (∅ : gmap string bool) !! "print_stream" ≠ Some true
  ∧ panel_events (behave project_host ["--dry-run"] ∅).2 = [].
Proof.
  assert ((∅ : gmap string bool) !! "print_stream" ≠ Some true) as Hk
    by (vm_compute; discriminate).
  split; [exact Hk|].
  exact (behave_silent_by_default project_host ["--dry-run"] ∅ Hk).
Defined.

Lemma behave_returns_output_witness :
  behave_command project_host = (Return ["/usr/local/bin/behave"], [])
  ∧ _get_project_folder project_host = (Return "/c", [])
  ∧ behave project_host ["--dry-run"; ""] ∅
    = (Return scenario_output,
       [Spawn ["/usr/local/bin/behave"; "--dry-run"] "/c" false]).
Proof.
  split; [reflexivity|]. split; [reflexivity|].
  assert ((∅ : gmap string bool) !! "print_stream" ≠ Some true) as Hk
    by (vm_compute; discriminate).
  assert (∀ rest, scenario_output ≠ "ConfigError" +:+ rest) as Hno
    by (intros rest; vm_compute; discriminate).
  exact (behave_returns_output project_host ["--dry-run"; ""] ∅
           ["/usr/local/bin/behave"] [] "/c" [] scenario_output
           eq_refl eq_refl eq_refl Hk Hno).
Defined.
